(** * ipython_config.py: the IPython start-up configuration

    The file is a flat script.  It asks the host (IPython) for its
    configuration object and assigns nine literals to fields of four of its
    sections:

      c = get_config()
      c.InteractiveShellApp.extensions = ['autoreload', 'line_profiler']
      c.InteractiveShell.autoindent = True
      ...
      c.PrefilterManager.multi_line_specials = True

    The script is embedded as a function from the configuration object that
    [get_config()] returns to the object as it is once the script has run, in
    an error monad that carries the exceptions attribute access can raise. *)

From stdpp Require Import gmap strings list fin_maps.
From Stdlib Require Import Ascii String.

Set Default Proof Using "Type".
Local Open Scope string_scope.

(** ** Python values *)

(** The values the script handles: the literals it assigns and the
    configuration objects it assigns them to.  A configuration object is a
    dictionary from attribute names to values; its sections are values of the
    same kind, nested. *)
#[warnings="-register-all"]
Inductive pyval :=
  | VNone
  | VBool (b : bool)
  | VInt (z : Z)
  | VStr (s : string)
  | VList (l : list pyval)
  | VConfig (m : gmap string pyval).

Abbreviation Config := (gmap string pyval).

Definition is_config (v : pyval) : bool :=
  match v with VConfig _ => true | _ => false end.

(** ** Exceptions and results *)

Inductive exn := AttributeError | ValueError.

Inductive result (A : Type) :=
  | Ok (a : A)
  | Raise (e : exn).
Arguments Ok {A} a.
Arguments Raise {A} e.

#[global] Instance result_ret : MRet result := λ A a, Ok a.
#[global] Instance result_bind : MBind result := λ A B k r,
  match r with
  | Ok a => k a
  | Raise e => Raise e
  end.

(** ** The host's configuration object *)

Definition is_lower (a : ascii) : bool :=
  ((97 <=? N_of_ascii a) && (N_of_ascii a <=? 122))%N.

Definition upper (a : ascii) : ascii :=
  if is_lower a then ascii_of_N (N_of_ascii a - 32) else a.

(** Modelled from the spec: the class of the configuration object belongs to
    the host and is not part of this repository.  The spec describes the
    object as a mutable container "organized into named sub-sections".  In the
    host a key names a section when its first character is its own upper case
    and is not an underscore ([key[0].upper() == key[0]]); every other key
    names a plain field. *)
Definition is_section_key (key : string) : bool :=
  match key with
  | EmptyString => false
  | String a _ => bool_decide (upper a = a) && negb (bool_decide (a = "_"%char))
  end.

(** Modelled from the spec: the object the host hands out keeps a section
    (a nested configuration object) under every section key; the host's
    item assignment refuses anything else there. *)
Definition host_config (c : Config) : Prop :=
  map_Forall (λ key v, is_section_key key = true → is_config v = true) c.

(** Modelled from the spec: [c.key] on a configuration object.  An existing
    entry is returned as it is.  A missing section is created empty, stored
    in [c] and returned, which is why the object comes back with the value;
    a missing plain field is an [AttributeError]. *)
Definition getattr (c : Config) (key : string) : result (pyval * Config) :=
  match c !! key with
  | Some v => Ok (v, c)
  | None =>
      if is_section_key key
      then Ok (VConfig ∅, <[key := VConfig ∅]> c)
      else Raise AttributeError
  end.

(** Modelled from the spec: [o.key = v].  On a configuration object the entry
    is stored, unless [key] is a section key and [v] is no configuration
    object ([ValueError]).  The other values of [pyval] (None, booleans,
    integers, strings, lists) accept no attribute assignment
    ([AttributeError]). *)
Definition setattr (o : pyval) (key : string) (v : pyval) : result pyval :=
  match o with
  | VConfig m =>
      if is_section_key key && negb (is_config v)
      then Raise ValueError
      else Ok (VConfig (<[key := v]> m))
  | _ => Raise AttributeError
  end.

(** Modelled from the spec: the "default/empty configuration object", what
    [get_config()] returns when nothing has been configured yet. *)
Definition fresh : Config := ∅.

(** ** Reading the object *)

(** The value found by following the attribute names [p] from [v] through
    nested configuration objects. *)
Fixpoint get_path (p : list string) (v : pyval) : option pyval :=
  match p with
  | [] => Some v
  | key :: p' =>
      match v with
      | VConfig m => m !! key ≫= get_path p'
      | _ => None
      end
  end.

(** [c.sec.key], when both exist. *)
Definition field (sec key : string) (c : Config) : option pyval :=
  get_path [sec; key] (VConfig c).

(** ** The script *)

(** One statement [c.sec.key = v].  [c.sec] yields a reference to the section
    kept inside [c] (created on the spot when missing), and the assignment
    updates that section in place: the change is seen through [c], so the
    updated section is put back under [sec]. *)
Definition assign (sec key : string) (v : pyval) (c : Config) : result Config :=
  '(s, c) ← getattr c sec;
  s ← setattr s key v;
  mret (<[sec := s]> c).

(** The script, lines 5 to 15, run on [c = get_config()] (line 2). *)
Definition ipython_config (c : Config) : result Config :=
  c ← assign "InteractiveShellApp" "extensions"
        (VList [VStr "autoreload"; VStr "line_profiler"]) c;
  c ← assign "InteractiveShell" "autoindent" (VBool true) c;
  c ← assign "InteractiveShell" "colors" (VStr "Linux") c;
  c ← assign "InteractiveShell" "confirm_exit" (VBool false) c;
  c ← assign "InteractiveShell" "deep_reload" (VBool true) c;
  c ← assign "InteractiveShell" "editor" (VStr "vim") c;
  c ← assign "InteractiveShell" "xmode" (VStr "Context") c;
  c ← assign "PromptManager" "justify" (VBool true) c;
  c ← assign "PrefilterManager" "multi_line_specials" (VBool true) c;
  mret c.

(** The same nine statements as data, in the order of the file, to speak
    about running them in another order. *)
Record stmt := Assign { target_section : string; target_key : string; value : pyval }.

Definition script : list stmt :=
  [ Assign "InteractiveShellApp" "extensions"
      (VList [VStr "autoreload"; VStr "line_profiler"]);
    Assign "InteractiveShell" "autoindent" (VBool true);
    Assign "InteractiveShell" "colors" (VStr "Linux");
    Assign "InteractiveShell" "confirm_exit" (VBool false);
    Assign "InteractiveShell" "deep_reload" (VBool true);
    Assign "InteractiveShell" "editor" (VStr "vim");
    Assign "InteractiveShell" "xmode" (VStr "Context");
    Assign "PromptManager" "justify" (VBool true);
    Assign "PrefilterManager" "multi_line_specials" (VBool true) ].

Definition exec_stmt (st : stmt) (c : Config) : result Config :=
  assign (target_section st) (target_key st) (value st) c.

Fixpoint exec (l : list stmt) (c : Config) : result Config :=
  match l with
  | [] => mret c
  | st :: l' => c ← exec_stmt st c; exec l' c
  end.

(** The place a statement writes to, as a path from the root object. *)
Definition target (st : stmt) : list string := [target_section st; target_key st].

(** The nine enumerated options, as paths. *)
Definition option_paths : list (list string) := target <$> script.

(** A statement is well formed for the host when it names a section and,
    inside it, a plain field. *)
Definition wf_stmt (st : stmt) : bool :=
  is_section_key (target_section st) && negb (is_section_key (target_key st)).

(** Two paths are related when one leads through the other: the place one of
    them names contains, or is contained in, the place the other names. *)
Definition related (p q : list string) : bool :=
  bool_decide (p `prefix_of` q) || bool_decide (q `prefix_of` p).

(** A path that names neither an enumerated option, nor something inside one,
    nor an object that holds one. *)
Definition outside_options (p : list string) : bool :=
  forallb (λ q, negb (related p q)) option_paths.

(** The path names an enumerated option or an object that holds one (a
    section of the script, or the root). *)
Definition leads_to_option (p : list string) : bool :=
  existsb (λ q, bool_decide (p `prefix_of` q)) option_paths.

(** ** What an assignment amounts to on a host object *)

(** The section of [c] under [sec], empty when there is none yet. *)
Definition section_of (c : Config) (sec : string) : Config :=
  match c !! sec with
  | Some (VConfig m) => m
  | _ => ∅
  end.

Definition put (st : stmt) (c : Config) : Config :=
  <[target_section st := VConfig (<[target_key st := value st]> (section_of c (target_section st)))]> c.

Definition run (l : list stmt) (c : Config) : Config := foldl (λ c st, put st c) c l.

(** ** Sample objects *)

(** An object already configured by an earlier profile: another editor, a
    field the script does not know, and a section it does not know. *)
Definition sample : Config :=
  <["InteractiveShell" :=
      VConfig (<["editor" := VStr "emacs"]> (<["pdb" := VBool true]> ∅))]>
  (<["TerminalIPythonApp" := VConfig (<["display_banner" := VBool false]> ∅)]> ∅).

(** An object whose extension list and flags hold the opposite values. *)
Definition sample2 : Config :=
  <["InteractiveShellApp" := VConfig (<["extensions" := VList [VStr "storemagic"]]> ∅)]>
  (<["InteractiveShell" :=
      VConfig (<["confirm_exit" := VBool true]> (<["autoindent" := VBool false]> ∅))]> ∅).

(** An object on which the nine options all exist already. *)
Definition configured : Config :=
  <["InteractiveShellApp" := VConfig (<["extensions" := VList []]> ∅)]>
  (<["InteractiveShell" :=
      VConfig (<["autoindent" := VBool false]> (<["colors" := VStr "NoColor"]>
              (<["confirm_exit" := VBool true]> (<["deep_reload" := VBool false]>
              (<["editor" := VStr "emacs"]> (<["xmode" := VStr "Plain"]> ∅))))))]>
  (<["PromptManager" := VConfig (<["justify" := VBool false]> ∅)]>
  (<["PrefilterManager" := VConfig (<["multi_line_specials" := VBool false]> ∅)]> ∅))).

(** ** What the script needs and what it writes *)

(** The name [sec] holds nothing yet, or holds a configuration object: the
    two cases in which [c.sec.key = v] can store its value. *)
Definition section_usable (c : Config) (sec : string) : bool :=
  match c !! sec with
  | None | Some (VConfig _) => true
  | Some _ => false
  end.

(** Every section the statements of [l] write to is usable in [c]. *)
Definition usable (l : list stmt) (c : Config) : bool :=
  forallb (λ st, section_usable c (target_section st)) l.

(** The section names the statements of [l] write to. *)
Definition sections_written (l : list stmt) : gset string :=
  list_to_set (target_section <$> l).

(** The field names the statements of [l] write to inside section [sec]. *)
Definition keys_written (l : list stmt) (sec : string) : gset string :=
  list_to_set (target_key <$> filter (λ st, target_section st = sec) l).

(** An object that is no host object, yet offers the script what it needs: a
    string sits under a section name the script does not use. *)
Definition odd_object : Config :=
  <["TerminalInteractiveShell" := VStr "oops"]>
  (<["InteractiveShell" := VConfig (<["editor" := VStr "emacs"]> ∅)]> ∅).

(** ** Tactics *)

(** Membership of a statement in the script. *)
Ltac in_script := unfold script; repeat constructor.

(** The host invariant on an object written out as a chain of inserts. *)
Ltac host_literal :=
  repeat (apply map_Forall_insert_2; [done|]); apply map_Forall_empty.

(** ** The host protocol on one statement *)

Lemma host_config_fresh : host_config fresh.
Proof. apply map_Forall_empty. Qed.

Lemma host_section c sec v :
  host_config c → is_section_key sec = true → c !! sec = Some v →
  ∃ m, v = VConfig m.
Proof.
  intros Hc Hsec Hv. specialize (Hc sec v Hv Hsec).
  destruct v; try discriminate. by eexists.
Qed.

Lemma wf_stmt_inv st :
  wf_stmt st = true →
  is_section_key (target_section st) = true ∧ is_section_key (target_key st) = false.
Proof.
  unfold wf_stmt. intros [? Hk%negb_true_iff]%andb_true_iff. done.
Qed.

(** On a host object a well-formed statement raises nothing and stores the
    value in its section, which it creates when missing. *)
Lemma exec_stmt_put st c :
  host_config c → wf_stmt st = true → exec_stmt st c = Ok (put st c).
Proof.
  intros Hc [Hsec Hkey]%wf_stmt_inv.
  unfold exec_stmt, assign, getattr, put, section_of.
  destruct (c !! target_section st) as [v|] eqn:Hv.
  - destruct (host_section c _ v Hc Hsec Hv) as [m ->]. cbn.
    by rewrite Hkey.
  - rewrite Hsec. cbn. rewrite Hkey. cbn. by rewrite insert_insert_eq.
Qed.

Lemma put_host st c : host_config c → host_config (put st c).
Proof. intros Hc. unfold put. by apply map_Forall_insert_2. Qed.

Lemma run_host l c : host_config c → host_config (run l c).
Proof.
  revert c. induction l as [|st l IH]; intros c Hc; [done|].
  apply IH, put_host, Hc.
Qed.

Lemma exec_run l c :
  host_config c → forallb wf_stmt l = true → exec l c = Ok (run l c).
Proof.
  revert c. induction l as [|st l IH]; intros c Hc Hwf; [done|].
  cbn in Hwf. apply andb_true_iff in Hwf as [Hst Hl].
  cbn [exec]. rewrite exec_stmt_put by done. cbn.
  apply IH; [by apply put_host | done].
Qed.

(** The function and the list of statements are the same program. *)
Lemma ipython_config_exec c : ipython_config c = exec script c.
Proof. reflexivity. Qed.

Lemma script_wf : forallb wf_stmt script = true.
Proof. reflexivity. Qed.

Lemma script_targets_NoDup : NoDup (target <$> script).
Proof. apply (bool_decide_unpack _). by vm_compute. Qed.

Lemma ipython_config_run c :
  host_config c → ipython_config c = Ok (run script c).
Proof. intros Hc. rewrite ipython_config_exec. by apply exec_run, script_wf. Qed.

(** ** Algebra of [put] *)

Lemma section_of_put_eq st c :
  section_of (put st c) (target_section st)
  = <[target_key st := value st]> (section_of c (target_section st)).
Proof. unfold put. unfold section_of at 1. by rewrite lookup_insert_eq. Qed.

Lemma section_of_put_ne st c sec :
  target_section st ≠ sec → section_of (put st c) sec = section_of c sec.
Proof. intros Hne. unfold put, section_of. by rewrite lookup_insert_ne. Qed.

(** Assignments to different places commute. *)
Lemma put_comm st1 st2 c :
  target st1 ≠ target st2 → put st1 (put st2 c) = put st2 (put st1 c).
Proof.
  intros Hne. destruct (decide (target_section st1 = target_section st2)) as [Hs|Hs].
  - assert (target_key st1 ≠ target_key st2) as Hk.
    { intros Hk. apply Hne. unfold target. by rewrite Hs, Hk. }
    unfold put at 1 3. rewrite Hs at 1 2.
    rewrite section_of_put_eq. rewrite <-Hs at 3 4. rewrite section_of_put_eq.
    unfold put. rewrite Hs, !insert_insert_eq. do 2 f_equal.
    by apply insert_insert_ne.
  - unfold put at 1 3.
    rewrite (section_of_put_ne st2) by done.
    rewrite (section_of_put_ne st1) by done.
    unfold put. by apply insert_insert_ne.
Qed.

(** A second assignment to the same place overrides the first. *)
Lemma put_absorb st1 st2 c :
  target st1 = target st2 → put st1 (put st2 c) = put st1 c.
Proof.
  intros [= Hs Hk]. unfold put at 1. rewrite Hs, section_of_put_eq.
  unfold put. rewrite Hs, Hk, !insert_insert_eq. done.
Qed.

Lemma get_path_put_eq st c :
  get_path (target st) (VConfig (put st c)) = Some (value st).
Proof. unfold put, target. cbn. rewrite lookup_insert_eq. cbn. by rewrite lookup_insert_eq. Qed.

Lemma related_false p q :
  related p q = false → ¬ p `prefix_of` q ∧ ¬ q `prefix_of` p.
Proof.
  unfold related. intros [H1 H2]%orb_false_iff.
  split; intros H; [rewrite bool_decide_eq_false in H1|rewrite bool_decide_eq_false in H2]; done.
Qed.

(** An assignment is seen only at its target, inside it and at the objects
    that hold it. *)
Lemma get_path_put_frame st c p :
  related p (target st) = false →
  get_path p (VConfig (put st c)) = get_path p (VConfig c).
Proof.
  intros [Hpq Hqp]%related_false. unfold target in *.
  destruct p as [|k p]; [by destruct Hpq; apply prefix_nil|].
  cbn. unfold put.
  destruct (decide (target_section st = k)) as [<-|Hk]; [|by rewrite lookup_insert_ne].
  rewrite lookup_insert_eq. cbn.
  destruct p as [|k2 p].
  { destruct Hpq. by exists [target_key st]. }
  cbn. destruct (decide (target_key st = k2)) as [<-|Hk2].
  { destruct Hqp. by exists p. }
  rewrite lookup_insert_ne by done. unfold section_of.
  destruct (c !! target_section st) as [[]|]; cbn; try done.
Qed.

(** ** Running a list of statements with pairwise distinct targets *)

Section run.
Implicit Types (l : list stmt) (c : Config) (st : stmt).

Lemma run_cons st l c : run (st :: l) c = run l (put st c).
Proof. done. Qed.

Lemma put_run_comm st l c :
  target st ∉ target <$> l → put st (run l c) = run l (put st c).
Proof.
  revert c. induction l as [|st' l IH]; intros c Hnotin; [done|].
  rewrite fmap_cons in Hnotin. apply not_elem_of_cons in Hnotin as [Hne Hl].
  rewrite !run_cons, IH by done. by rewrite put_comm.
Qed.

Lemma run_idem l c :
  NoDup (target <$> l) → run l (run l c) = run l c.
Proof.
  revert c. induction l as [|st l IH]; intros c Hnd; [done|].
  rewrite fmap_cons in Hnd. apply NoDup_cons in Hnd as [Hst Hl].
  rewrite !run_cons, put_run_comm by done.
  rewrite put_absorb by done. by apply IH.
Qed.

Lemma run_perm l l' c :
  NoDup (target <$> l) → l ≡ₚ l' → run l c = run l' c.
Proof.
  intros Hnd Hperm. revert c Hnd.
  induction Hperm as [|st l l' _ IH|st1 st2 l|l1 l2 l3 H12 IH12 H23 IH23];
    intros c Hnd.
  - done.
  - rewrite fmap_cons in Hnd. apply NoDup_cons in Hnd as [_ Hl].
    rewrite !run_cons. by apply IH.
  - rewrite !fmap_cons in Hnd.
    apply NoDup_cons in Hnd as [[Hne _]%not_elem_of_cons _].
    rewrite !run_cons, put_comm; [done | by intros Heq].
  - rewrite IH12 by done. apply IH23. by rewrite <-H12.
Qed.

Lemma run_get st l c :
  NoDup (target <$> l) → st ∈ l →
  get_path (target st) (VConfig (run l c)) = Some (value st).
Proof.
  revert c. induction l as [|st' l IH]; intros c Hnd Hin.
  { by apply elem_of_nil in Hin. }
  rewrite fmap_cons in Hnd. apply NoDup_cons in Hnd as [Hst' Hl].
  apply elem_of_cons in Hin as [->|Hin]; rewrite run_cons.
  - rewrite <-put_run_comm by done. apply get_path_put_eq.
  - by apply IH.
Qed.

Lemma run_frame p l c :
  Forall (λ st, related p (target st) = false) l →
  get_path p (VConfig (run l c)) = get_path p (VConfig c).
Proof.
  revert c. induction l as [|st l IH]; intros c Hall; [done|].
  apply Forall_cons in Hall as [Hst Hl].
  rewrite run_cons, IH by done. by apply get_path_put_frame.
Qed.
End run.

(** ** Paths *)

Lemma get_path_app (p r : list string) v :
  get_path (p ++ r)%list v = get_path p v ≫= get_path r.
Proof.
  revert v. induction p as [|key p IH]; intros v; [done|].
  cbn. destruct v as [| | | | |m]; try done.
  destruct (m !! key) as [w|]; cbn; [apply IH | done].
Qed.

(** What exists at a path exists at every prefix of it. *)
Lemma get_path_prefix p q v :
  p `prefix_of` q → is_Some (get_path q v) → is_Some (get_path p v).
Proof.
  intros [r ->]. rewrite get_path_app.
  destruct (get_path p v); [by eexists | by intros [? ?]].
Qed.

(** Only a configuration object has anything below it. *)
Lemma get_path_below_value k r v :
  is_config v = false → get_path (k :: r) v = None.
Proof. by destruct v. Qed.

Lemma outside_options_frame p :
  outside_options p = true →
  Forall (λ st, related p (target st) = false) script.
Proof.
  unfold outside_options, option_paths. rewrite forallb_forall.
  intros Hall. apply Forall_forall. intros st Hst.
  apply negb_true_iff, Hall, in_map, list_elem_of_In, Hst.
Qed.

Lemma script_values_plain : Forall (λ st, is_config (value st) = false) script.
Proof. repeat constructor. Qed.

Lemma forallb_false_elem {A} (f : A → bool) (l : list A) :
  forallb f l = false → ∃ x, x ∈ l ∧ f x = false.
Proof.
  induction l as [|x l IH]; [done|]. cbn.
  destruct (f x) eqn:Hx; cbn.
  - intros (y & Hy & Hfy)%IH. exists y. split; [by right | done].
  - intros _. exists x. split; [by left | done].
Qed.

(** A path is outside the options, or leads to one, or goes through one. *)
Lemma path_cases p :
  outside_options p = true ∨ leads_to_option p = true
  ∨ ∃ st k r, st ∈ script ∧ p = (target st ++ k :: r)%list.
Proof.
  destruct (outside_options p) eqn:Hout; [by left | right].
  destruct (leads_to_option p) eqn:Hlead; [by left | right].
  unfold outside_options in Hout. unfold leads_to_option in Hlead.
  apply not_true_iff_false in Hlead. rewrite existsb_exists in Hlead.
  apply forallb_false_elem in Hout as (q & Hin & Hrel).
  apply negb_false_iff in Hrel.
  unfold related in Hrel. apply orb_true_iff in Hrel as [Hpq|Hqp].
  { destruct Hlead. exists q. by rewrite <-list_elem_of_In. }
  apply bool_decide_eq_true in Hqp as [r ->].
  unfold option_paths in Hin. apply list_elem_of_fmap in Hin as (st & -> & Hst).
  destruct r as [|k r].
  { destruct Hlead. exists (target st). split.
    - apply in_map. by rewrite <-list_elem_of_In.
    - apply bool_decide_eq_true. by rewrite app_nil_r. }
  by exists st, k, r.
Qed.

(** ** The script on a host object *)

Lemma script_field sec key v c :
  Assign sec key v ∈ script → field sec key (run script c) = Some v.
Proof. intros Hin. apply (run_get _ _ c script_targets_NoDup Hin). Qed.

Lemma ipython_config_twice c :
  host_config c → ipython_config (run script c) = Ok (run script c).
Proof.
  intros Hc. rewrite ipython_config_run by apply run_host, Hc.
  by rewrite run_idem by apply script_targets_NoDup.
Qed.

Lemma permuted_script_wf l : script ≡ₚ l → forallb wf_stmt l = true.
Proof.
  intros Hperm. apply forallb_forall. intros st Hst.
  apply (Permutation_in _ (Permutation_sym Hperm)) in Hst.
  pose proof script_wf as Hwf. rewrite forallb_forall in Hwf. by apply Hwf.
Qed.

Lemma same_targets_wf l l' :
  target <$> l = target <$> l' → forallb wf_stmt l = forallb wf_stmt l'.
Proof.
  revert l'. induction l as [|st l IH]; intros [|st' l']; try done.
  rewrite !fmap_cons. intros [= Hsec Hkey Hl]. cbn.
  unfold wf_stmt at 1 3. rewrite Hsec, Hkey. f_equal. by apply IH.
Qed.

(** ** The script on concrete objects *)

(** On the empty object the run creates the four sections and their nine
    fields. *)
Example run_on_fresh :
  ipython_config fresh
  = Ok (<["InteractiveShellApp" :=
            VConfig (<["extensions" := VList [VStr "autoreload"; VStr "line_profiler"]]> ∅)]>
       (<["InteractiveShell" :=
            VConfig (<["autoindent" := VBool true]> (<["colors" := VStr "Linux"]>
                    (<["confirm_exit" := VBool false]> (<["deep_reload" := VBool true]>
                    (<["editor" := VStr "vim"]> (<["xmode" := VStr "Context"]> ∅))))))]>
       (<["PromptManager" := VConfig (<["justify" := VBool true]> ∅)]>
       (<["PrefilterManager" := VConfig (<["multi_line_specials" := VBool true]> ∅)]> ∅)))).
Proof. by vm_compute. Qed.

(** Fields and sections the script does not name are kept; the editor is
    replaced. *)
Example run_on_sample :
  ipython_config sample
  = Ok (<["InteractiveShellApp" :=
            VConfig (<["extensions" := VList [VStr "autoreload"; VStr "line_profiler"]]> ∅)]>
       (<["InteractiveShell" :=
            VConfig (<["autoindent" := VBool true]> (<["colors" := VStr "Linux"]>
                    (<["confirm_exit" := VBool false]> (<["deep_reload" := VBool true]>
                    (<["editor" := VStr "vim"]> (<["xmode" := VStr "Context"]>
                    (<["pdb" := VBool true]> ∅)))))))]>
       (<["PromptManager" := VConfig (<["justify" := VBool true]> ∅)]>
       (<["PrefilterManager" := VConfig (<["multi_line_specials" := VBool true]> ∅)]>
       (<["TerminalIPythonApp" := VConfig (<["display_banner" := VBool false]> ∅)]> ∅))))).
Proof. by vm_compute. Qed.

(** The protocol does have failure paths; the host invariant and the names
    the script uses keep the script off them.  An object that is no host
    object, with a string where a section belongs, makes the first assignment
    to that section raise. *)
Example not_a_host_object :
  ipython_config (<["InteractiveShell" := VStr "vim"]> ∅) = Raise AttributeError.
Proof. by vm_compute. Qed.

(** A plain value under a section key is refused by the host. *)
Example section_key_wants_section :
  setattr (VConfig ∅) "Editor" (VStr "vim") = Raise ValueError.
Proof. reflexivity. Qed.

Example section_keys :
  is_section_key "InteractiveShell" = true ∧ is_section_key "editor" = false
  ∧ is_section_key "_private" = false.
Proof. done. Qed.

(** ** The claims *)

(** C1: on a configuration object provided by the host the loader completes,
    and afterwards each of the nine recognized options holds the literal the
    file assigns: extensions is ["autoreload", "line_profiler"], autoindent is
    true, colors is "Linux", confirm_exit is false, deep_reload is true,
    editor is "vim", xmode is "Context", justify is true and
    multi_line_specials is true. *)
Theorem options_hold_literals (c : Config) :
  host_config c →
  ∃ c', ipython_config c = Ok c'
    ∧ field "InteractiveShellApp" "extensions" c'
      = Some (VList [VStr "autoreload"; VStr "line_profiler"])
    ∧ field "InteractiveShell" "autoindent" c' = Some (VBool true)
    ∧ field "InteractiveShell" "colors" c' = Some (VStr "Linux")
    ∧ field "InteractiveShell" "confirm_exit" c' = Some (VBool false)
    ∧ field "InteractiveShell" "deep_reload" c' = Some (VBool true)
    ∧ field "InteractiveShell" "editor" c' = Some (VStr "vim")
    ∧ field "InteractiveShell" "xmode" c' = Some (VStr "Context")
    ∧ field "PromptManager" "justify" c' = Some (VBool true)
    ∧ field "PrefilterManager" "multi_line_specials" c' = Some (VBool true).
Proof.
  intros Hc. exists (run script c). split; [by apply ipython_config_run|].
  repeat split; apply script_field; in_script.
Qed.

Lemma options_hold_literals_witness :
  host_config sample
  ∧ ∃ c', ipython_config sample = Ok c'
    ∧ field "InteractiveShellApp" "extensions" c'
      = Some (VList [VStr "autoreload"; VStr "line_profiler"])
    ∧ field "InteractiveShell" "autoindent" c' = Some (VBool true)
    ∧ field "InteractiveShell" "colors" c' = Some (VStr "Linux")
    ∧ field "InteractiveShell" "confirm_exit" c' = Some (VBool false)
    ∧ field "InteractiveShell" "deep_reload" c' = Some (VBool true)
    ∧ field "InteractiveShell" "editor" c' = Some (VStr "vim")
    ∧ field "InteractiveShell" "xmode" c' = Some (VStr "Context")
    ∧ field "PromptManager" "justify" c' = Some (VBool true)
    ∧ field "PrefilterManager" "multi_line_specials" c' = Some (VBool true).
Proof.
  split; [unfold sample; host_literal|].
  apply (options_hold_literals sample). unfold sample; host_literal.
Defined.

(** C2: after the loader has run, the extensions field is exactly the
    two-element list ["autoreload", "line_profiler"], in that order, whatever
    the object held before (the field may have been absent or have held any
    value). *)
Theorem extensions_exact (c : Config) :
  host_config c →
  ∃ c', ipython_config c = Ok c'
    ∧ field "InteractiveShellApp" "extensions" c'
      = Some (VList [VStr "autoreload"; VStr "line_profiler"]).
Proof.
  intros Hc. exists (run script c). split; [by apply ipython_config_run|].
  apply script_field; in_script.
Qed.

Lemma extensions_exact_witness :
  field "InteractiveShellApp" "extensions" sample2 = Some (VList [VStr "storemagic"])
  ∧ ∃ c', ipython_config sample2 = Ok c'
    ∧ field "InteractiveShellApp" "extensions" c'
      = Some (VList [VStr "autoreload"; VStr "line_profiler"]).
Proof.
  split; [reflexivity|].
  apply (extensions_exact sample2). unfold sample2; host_literal.
Defined.

(** C3: the loader leaves every field outside the nine enumerated options as
    it was: at any path that names neither an option, nor something inside
    one, nor an object holding one, the object reads the same before and
    after the run. *)
Theorem other_fields_unchanged (c : Config) (p : list string) :
  host_config c → outside_options p = true →
  ∃ c', ipython_config c = Ok c'
    ∧ get_path p (VConfig c') = get_path p (VConfig c).
Proof.
  intros Hc Hp. exists (run script c). split; [by apply ipython_config_run|].
  by apply run_frame, outside_options_frame.
Qed.

Lemma other_fields_unchanged_witness :
  field "InteractiveShell" "pdb" sample = Some (VBool true)
  ∧ ∃ c', ipython_config sample = Ok c'
    ∧ get_path ["InteractiveShell"; "pdb"] (VConfig c')
      = get_path ["InteractiveShell"; "pdb"] (VConfig sample).
Proof.
  split; [reflexivity|].
  apply (other_fields_unchanged sample ["InteractiveShell"; "pdb"]).
  - unfold sample; host_literal.
  - by vm_compute.
Defined.

(** C4: on a fresh configuration object, running the loader a second time
    changes nothing: both runs complete and the object after the second run
    is the object after the first, so no field accumulates or toggles. *)
Theorem twice_on_fresh :
  ∃ c1, ipython_config fresh = Ok c1
    ∧ ipython_config fresh ≫= ipython_config = Ok c1.
Proof.
  exists (run script fresh).
  rewrite ipython_config_run by apply host_config_fresh.
  split; [done|]. cbn. apply ipython_config_twice, host_config_fresh.
Qed.

(** C5: on the default, empty configuration object the loader completes with
    confirm_exit false and autoindent, deep_reload, justify and
    multi_line_specials true. *)
Theorem flags_on_fresh :
  ∃ c', ipython_config fresh = Ok c'
    ∧ field "InteractiveShell" "confirm_exit" c' = Some (VBool false)
    ∧ field "InteractiveShell" "autoindent" c' = Some (VBool true)
    ∧ field "InteractiveShell" "deep_reload" c' = Some (VBool true)
    ∧ field "PromptManager" "justify" c' = Some (VBool true)
    ∧ field "PrefilterManager" "multi_line_specials" c' = Some (VBool true).
Proof.
  exists (run script fresh). split.
  - apply ipython_config_run, host_config_fresh.
  - repeat split; apply script_field; in_script.
Qed.

(** C6: the nine assignments commute: run in any order on the same host
    object, they complete and produce the same object as the file's order. *)
Theorem assignments_commute (l : list stmt) (c : Config) :
  script ≡ₚ l → host_config c →
  ∃ c', ipython_config c = Ok c' ∧ exec l c = Ok c'.
Proof.
  intros Hperm Hc. exists (run script c). split; [by apply ipython_config_run|].
  rewrite exec_run by (done || by apply permuted_script_wf).
  f_equal. symmetry. by apply run_perm, Hperm; apply script_targets_NoDup.
Qed.

Lemma assignments_commute_witness :
  ∃ c', ipython_config sample = Ok c' ∧ exec (rev script) sample = Ok c'.
Proof.
  apply (assignments_commute (rev script) sample).
  - apply Permutation_rev.
  - unfold sample; host_literal.
Defined.

(** C7: the loader has no failure path.  On every configuration object
    provided by the host the run completes without raising, and no value is
    checked on the way: the same nine assignments complete whatever values
    they assign. *)
Theorem loader_never_raises (c : Config) :
  host_config c →
  (∃ c', ipython_config c = Ok c')
  ∧ (∀ l, target <$> l = option_paths → ∃ c', exec l c = Ok c').
Proof.
  intros Hc. split.
  - exists (run script c). by apply ipython_config_run.
  - intros l Hl. exists (run l c). apply exec_run; [done|].
    by rewrite (same_targets_wf l script Hl), script_wf.
Qed.

Lemma loader_never_raises_witness :
  (∃ c', ipython_config sample2 = Ok c')
  ∧ (∀ l, target <$> l = option_paths → ∃ c', exec l sample2 = Ok c').
Proof.
  apply (loader_never_raises sample2). unfold sample2; host_literal.
Defined.

(** C8, as stated, fails on the default, empty object: it has no editor key
    (nor any section), and after the run the key exists. *)
Lemma keys_introduced_on_fresh :
  fresh !! "InteractiveShell" = None
  ∧ field "InteractiveShell" "editor" fresh = None
  ∧ ∃ c', ipython_config fresh = Ok c'
      ∧ field "InteractiveShell" "editor" c' = Some (VStr "vim").
Proof.
  split; [done|]. split; [done|].
  exists (run script fresh). split.
  - apply ipython_config_run, host_config_fresh.
  - apply script_field; in_script.
Qed.

(** C8, amended: the loader introduces no key other than the nine enumerated
    options and the sections that hold them.  Whatever exists in the object
    after the run either existed before or is one of those; and on an object
    where the nine options exist already, nothing new exists after the run. *)
Theorem only_option_keys_introduced (c : Config) :
  host_config c →
  ∃ c', ipython_config c = Ok c'
    ∧ (∀ p, is_Some (get_path p (VConfig c')) →
            is_Some (get_path p (VConfig c)) ∨ leads_to_option p = true)
    ∧ ((∀ q, q ∈ option_paths → is_Some (get_path q (VConfig c))) →
       ∀ p, is_Some (get_path p (VConfig c')) → is_Some (get_path p (VConfig c))).
Proof.
  intros Hc. exists (run script c). split; [by apply ipython_config_run|].
  assert (∀ p, is_Some (get_path p (VConfig (run script c))) →
            is_Some (get_path p (VConfig c)) ∨ leads_to_option p = true) as Hnew.
  { intros p Hp.
    destruct (path_cases p) as [Hout|[Hlead|(st & k & r & Hst & ->)]].
    - left. by rewrite <-(run_frame p script c) by by apply outside_options_frame.
    - by right.
    - exfalso. rewrite get_path_app in Hp.
      rewrite (run_get st script c script_targets_NoDup Hst) in Hp.
      change (is_Some (get_path (k :: r) (value st))) in Hp.
      pose proof script_values_plain as Hplain.
      rewrite Forall_forall in Hplain.
      rewrite get_path_below_value in Hp by by apply Hplain.
      by destruct Hp. }
  split; [done|]. intros Hall p Hp.
  destruct (Hnew p Hp) as [|Hlead]; [done|].
  unfold leads_to_option in Hlead.
  apply existsb_exists in Hlead as (q & Hq & Hpq%bool_decide_eq_true).
  apply (get_path_prefix p q); [done|]. by apply Hall, list_elem_of_In.
Qed.

Lemma only_option_keys_introduced_witness :
  ∃ c', ipython_config configured = Ok c'
    ∧ ∀ p, is_Some (get_path p (VConfig c')) →
           is_Some (get_path p (VConfig configured)).
Proof.
  destruct (only_option_keys_introduced configured) as (c' & Hrun & _ & Hkeys).
  { unfold configured; host_literal. }
  exists c'. split; [exact Hrun|]. apply Hkeys.
  intros q Hq. unfold option_paths, script in Hq. cbn in Hq.
  repeat (apply elem_of_cons in Hq as [->|Hq]; [by eexists|]).
  by apply elem_of_nil in Hq.
Defined.

(** C9: the nine enumerated fields after the run do not depend on the object
    the loader started from: for any two host objects, each of the nine
    options exists in both results and reads the same in both. *)
Theorem options_independent_of_start (c1 c2 : Config) :
  host_config c1 → host_config c2 →
  ∃ c1' c2', ipython_config c1 = Ok c1' ∧ ipython_config c2 = Ok c2'
    ∧ ∀ q, q ∈ option_paths →
        is_Some (get_path q (VConfig c1'))
        ∧ get_path q (VConfig c1') = get_path q (VConfig c2').
Proof.
  intros Hc1 Hc2. exists (run script c1), (run script c2).
  split; [by apply ipython_config_run|]. split; [by apply ipython_config_run|].
  intros q (st & -> & Hst)%list_elem_of_fmap.
  rewrite !(run_get st script _ script_targets_NoDup Hst). by split; [eexists|].
Qed.

Lemma options_independent_of_start_witness :
  ∃ c1' c2', ipython_config sample = Ok c1' ∧ ipython_config sample2 = Ok c2'
    ∧ ∀ q, q ∈ option_paths →
        is_Some (get_path q (VConfig c1'))
        ∧ get_path q (VConfig c1') = get_path q (VConfig c2').
Proof.
  apply (options_independent_of_start sample sample2).
  - unfold sample; host_literal.
  - unfold sample2; host_literal.
Defined.

(** C10: the loader is idempotent on every host object, whatever its prior
    state: the run completes, and a second run on its result completes and
    returns that same result. *)
Theorem loader_idempotent (c : Config) :
  host_config c →
  ∃ c1, ipython_config c = Ok c1 ∧ ipython_config c1 = Ok c1.
Proof.
  intros Hc. exists (run script c).
  split; [by apply ipython_config_run | by apply ipython_config_twice].
Qed.

Lemma loader_idempotent_witness :
  ∃ c1, ipython_config sample = Ok c1 ∧ ipython_config c1 = Ok c1.
Proof.
  apply (loader_idempotent sample). unfold sample; host_literal.
Defined.

(** ** Beyond the claims: the script on arbitrary objects and beside other
    assignments *)

Lemma bind_Ok {A B} (a : A) (k : A → result B) : Ok a ≫= k = k a.
Proof. done. Qed.

Lemma wf_stmt_target st st' : target st = target st' → wf_stmt st = wf_stmt st'.
Proof. intros [= Hsec Hkey]. unfold wf_stmt. by rewrite Hsec, Hkey. Qed.

Lemma option_path_wf st : target st ∈ option_paths → wf_stmt st = true.
Proof.
  intros (st' & Ht & Hst')%list_elem_of_fmap.
  rewrite (wf_stmt_target st st' Ht).
  pose proof script_wf as Hwf. rewrite forallb_forall in Hwf.
  by apply Hwf, list_elem_of_In.
Qed.

(** One well-formed statement on any object, host object or not. *)
Lemma exec_stmt_usable st c :
  wf_stmt st = true →
  exec_stmt st c
  = if section_usable c (target_section st) then Ok (put st c) else Raise AttributeError.
Proof.
  intros [Hsec Hkey]%wf_stmt_inv.
  unfold exec_stmt, assign, getattr, put, section_of, section_usable.
  destruct (c !! target_section st) as [[]|] eqn:Hv; cbn; try done.
  - by rewrite Hkey.
  - rewrite Hsec. cbn. rewrite Hkey. cbn. by rewrite insert_insert_eq.
Qed.

Lemma section_usable_put st c sec :
  section_usable c (target_section st) = true →
  section_usable (put st c) sec = section_usable c sec.
Proof.
  intros Hst. unfold put. unfold section_usable at 1.
  destruct (decide (target_section st = sec)) as [<-|Hne].
  - by rewrite lookup_insert_eq, Hst.
  - by rewrite lookup_insert_ne.
Qed.

Lemma usable_put st l c :
  section_usable c (target_section st) = true → usable l (put st c) = usable l c.
Proof.
  intros Hst. unfold usable. induction l as [|st' l IH]; [done|].
  cbn. by rewrite IH, section_usable_put.
Qed.

Lemma exec_usable l c :
  forallb wf_stmt l = true →
  exec l c = if usable l c then Ok (run l c) else Raise AttributeError.
Proof.
  revert c. induction l as [|st l IH]; intros c Hwf; [done|].
  cbn in Hwf. apply andb_true_iff in Hwf as [Hst Hl].
  cbn [exec]. rewrite exec_stmt_usable by done.
  unfold usable; cbn [forallb]; fold (usable l c).
  destruct (section_usable c (target_section st)) eqn:Hu; cbn; [|done].
  rewrite IH by done. by rewrite usable_put.
Qed.

Lemma run_absorb st l c :
  NoDup (target <$> l) → target st ∈ target <$> l → run l (put st c) = run l c.
Proof.
  revert c. induction l as [|st' l IH]; intros c Hnd Hin.
  { by apply elem_of_nil in Hin. }
  rewrite fmap_cons in Hnd, Hin. apply NoDup_cons in Hnd as [Hst' Hl].
  rewrite !run_cons.
  destruct (decide (target st' = target st)) as [Heq|Hne].
  - by rewrite put_absorb.
  - apply elem_of_cons in Hin as [Heq|Hin]; [by destruct Hne|].
    rewrite put_comm by done. by apply IH.
Qed.

#[local] Set Warnings "-clear-no-such-hyp".

Lemma dom_put st c : dom (put st c) = {[target_section st]} ∪ dom c.
Proof. unfold put. by rewrite dom_insert_L. Qed.

Lemma dom_run l c : dom (run l c) = dom c ∪ sections_written l.
Proof.
  revert c. unfold sections_written.
  induction l as [|st l IH]; intros c; cbn [fmap list_fmap list_to_set].
  { cbn. set_solver. }
  rewrite run_cons, IH, dom_put. set_solver.
Qed.

Lemma dom_section_of_put st c sec :
  dom (section_of (put st c) sec)
  = dom (section_of c sec) ∪ keys_written [st] sec.
Proof.
  unfold keys_written. rewrite filter_cons, filter_nil.
  destruct (decide (target_section st = sec)) as [<-|Hne].
  - rewrite section_of_put_eq, dom_insert_L. cbn. set_solver.
  - rewrite section_of_put_ne by done. cbn. set_solver.
Qed.

Lemma dom_section_of_run l c sec :
  dom (section_of (run l c) sec) = dom (section_of c sec) ∪ keys_written l sec.
Proof.
  revert c. induction l as [|st l IH]; intros c.
  { unfold keys_written. cbn. set_solver. }
  rewrite run_cons, IH, dom_section_of_put.
  unfold keys_written. rewrite !filter_cons, filter_nil.
  destruct (decide (target_section st = sec)); cbn; set_solver.
Qed.

(** The sets of names the script writes, spelled out. *)
Example sections_written_script :
  sections_written script
  = {[ "InteractiveShellApp"; "InteractiveShell"; "PromptManager"; "PrefilterManager" ]}.
Proof. by vm_compute. Qed.

Example keys_written_shell :
  keys_written script "InteractiveShell"
  = {[ "autoindent"; "colors"; "confirm_exit"; "deep_reload"; "editor"; "xmode" ]}.
Proof. by vm_compute. Qed.

Example keys_written_elsewhere : keys_written script "TerminalIPythonApp" = ∅.
Proof. by vm_compute. Qed.

(** The script asks less than the host invariant: a stray string under a
    section name it does not use is no obstacle. *)
Example odd_object_runs :
  ¬ host_config odd_object ∧ ∃ c', ipython_config odd_object = Ok c'.
Proof.
  split.
  - intros Hc. by specialize (Hc "TerminalInteractiveShell" (VStr "oops") eq_refl eq_refl).
  - eexists. by vm_compute.
Qed.

(** ** Further properties of the script *)

(** X1: the run keeps the host's invariant.  On a host object the loader
    completes, and the object it leaves is a host object again (every section
    key still holds a section), so whatever the host loads next finds the
    object in the shape it expects. *)
Theorem result_is_host_object (c : Config) :
  host_config c →
  ∃ c', ipython_config c = Ok c' ∧ host_config c'.
Proof.
  intros Hc. exists (run script c).
  split; [by apply ipython_config_run | by apply run_host].
Qed.

Lemma result_is_host_object_witness :
  ∃ c', ipython_config sample = Ok c' ∧ host_config c'.
Proof.
  apply (result_is_host_object sample). unfold sample; host_literal.
Defined.

(** X2: the exact failure behaviour, on any object whatever.  The run
    completes when each of the four section names the script uses is absent
    or holds a configuration object; in every other case it raises
    AttributeError, and it never raises anything else. *)
Theorem completes_or_attribute_error (c : Config) :
  if usable script c
  then ∃ c', ipython_config c = Ok c'
  else ipython_config c = Raise AttributeError.
Proof.
  rewrite ipython_config_exec, (exec_usable script c script_wf).
  destruct (usable script c); [by eexists | done].
Qed.

(** X3: the keys the run leaves behind.  At the top level the object has the
    keys it had plus the section names the script writes to, and each section
    has the keys it had plus the field names the script writes in it: nothing
    is removed, and nothing else is added. *)
Theorem keys_after_run (c : Config) :
  host_config c →
  ∃ c', ipython_config c = Ok c'
    ∧ dom c' = dom c ∪ sections_written script
    ∧ ∀ sec, dom (section_of c' sec) = dom (section_of c sec) ∪ keys_written script sec.
Proof.
  intros Hc. exists (run script c). split; [by apply ipython_config_run|].
  split; [apply dom_run | intros sec; apply dom_section_of_run].
Qed.

Lemma keys_after_run_witness :
  ∃ c', ipython_config sample = Ok c'
    ∧ dom c' = dom sample ∪ sections_written script
    ∧ ∀ sec, dom (section_of c' sec) = dom (section_of sample sec) ∪ keys_written script sec.
Proof.
  apply (keys_after_run sample). unfold sample; host_literal.
Defined.

(** X4: the loader erases earlier settings of its options.  An assignment to
    one of the nine options, with any value, made just before the run leaves
    no trace: the run completes with the object it produces without that
    assignment. *)
Theorem earlier_setting_erased (st : stmt) (c : Config) :
  host_config c → target st ∈ option_paths →
  ∃ c', ipython_config c = Ok c'
    ∧ exec_stmt st c ≫= ipython_config = Ok c'.
Proof.
  intros Hc Hst. exists (run script c). split; [by apply ipython_config_run|].
  rewrite exec_stmt_put by (done || by apply option_path_wf).
  rewrite bind_Ok.
  rewrite ipython_config_run by by apply put_host.
  f_equal. by apply run_absorb; [apply script_targets_NoDup|].
Qed.

Lemma earlier_setting_erased_witness :
  ∃ c', ipython_config sample = Ok c'
    ∧ exec_stmt (Assign "InteractiveShell" "colors" (VStr "NoColor")) sample
      ≫= ipython_config = Ok c'.
Proof.
  apply (earlier_setting_erased (Assign "InteractiveShell" "colors" (VStr "NoColor")) sample).
  - unfold sample; host_literal.
  - apply (bool_decide_unpack _). by vm_compute.
Defined.

(** X5: the loader commutes with assignments to other fields.  An assignment
    to a section's plain field that is none of the nine options gives the same
    object whether it is made before the run or after it, and both orders
    complete. *)
Theorem other_assignment_commutes (st : stmt) (c : Config) :
  host_config c → wf_stmt st = true → target st ∉ option_paths →
  ∃ c', exec_stmt st c ≫= ipython_config = Ok c'
    ∧ ipython_config c ≫= exec_stmt st = Ok c'.
Proof.
  intros Hc Hwf Hst. exists (run script (put st c)). split.
  - rewrite exec_stmt_put by done. rewrite bind_Ok.
    by apply ipython_config_run, put_host.
  - rewrite ipython_config_run by done. rewrite bind_Ok.
    rewrite exec_stmt_put; [|by apply run_host|done].
    f_equal. by apply put_run_comm.
Qed.

Lemma other_assignment_commutes_witness :
  ∃ c', exec_stmt (Assign "InteractiveShell" "pdb" (VBool false)) sample
          ≫= ipython_config = Ok c'
    ∧ ipython_config sample
          ≫= exec_stmt (Assign "InteractiveShell" "pdb" (VBool false)) = Ok c'.
Proof.
  apply (other_assignment_commutes (Assign "InteractiveShell" "pdb" (VBool false)) sample).
  - unfold sample; host_literal.
  - reflexivity.
  - apply (bool_decide_unpack _). by vm_compute.
Defined.
